(** * mkusb.h: the exported surface of the light-meter driver library

    The repository's only source file is a C header,
    [src/resources/bin/light_meter_dll/mkusb.h].  It holds an include
    guard, the definition of the [DLLEXP] decoration macro, an
    [extern "C"] block that is opened and closed under [__cplusplus],
    and 53 function declarations.

    The header is embedded as data: the list of its lines, each
    declaration a record with the fields the line spells out.  The two
    things a compiler does with it are embedded as functions: the
    conditional-inclusion pass of the preprocessor over a macro table,
    and the linkage each declaration gets from the enclosing block. *)

From stdpp Require Import gmap strings list.
From Stdlib Require Import ZArith.

Local Open Scope string_scope.

(** ** C types as the header writes them *)

(** The type specifiers that occur in the header.  [TUnsigned] is the
    bare [unsigned] of [unsigned fir_cutfreq]; [TUInt] is the spelled
    out [unsigned int]. *)
Inductive base_type :=
| TVoid | TBool | TChar | TInt | TUInt | TUnsigned | TUShort | TFloat | TDouble.

(** A declarator adds pointers ([int *list]) or an array extent
    ([float data[81]], [float data[]]) to a specifier. *)
Inductive ctype :=
| Base (b : base_type)
| Ptr (t : ctype)
| Arr (t : ctype) (extent : option N).

Inductive callconv := Cdecl | Stdcall | Fastcall.

Inductive declspec := DllExport | DllImport.

Record param := P { p_type : ctype; p_name : string }.

(** One declaration line
    [<decoration> <return type> <calling convention> <name>(<params>);]
    The decoration is the macro identifier in front of the return type
    and the calling convention is the keyword in front of the name; both
    are optional in C, so both are options here. *)
Record decl := Fn {
  d_decor : option string;
  d_ret : ctype;
  d_cc : option callconv;
  d_name : string;
  d_params : list param
}.

#[global] Instance base_type_eq_dec : EqDecision base_type.
Proof. solve_decision. Defined.
#[global] Instance ctype_eq_dec : EqDecision ctype.
Proof. solve_decision. Defined.
#[global] Instance callconv_eq_dec : EqDecision callconv.
Proof. solve_decision. Defined.
#[global] Instance declspec_eq_dec : EqDecision declspec.
Proof. solve_decision. Defined.
#[global] Instance param_eq_dec : EqDecision param.
Proof. solve_decision. Defined.
#[global] Instance decl_eq_dec : EqDecision decl.
Proof. solve_decision. Defined.

(** [unsigned] and [unsigned int] name the same type. *)
Definition canon (b : base_type) : base_type :=
  match b with TUnsigned => TUInt | _ => b end.

(** ** The declarations, in the order of the file (lines 17 to 121) *)

Definition header_decls : list decl := [
  Fn (Some "DLLEXP") (Base TUInt) (Some Cdecl) "mk_version" [];
  Fn (Some "DLLEXP") (Base TBool) (Some Cdecl) "mk_Init"
     [P (Base TInt) "isMonitor"; P (Base TInt) "msec"];
  Fn (Some "DLLEXP") (Base TVoid) (Some Cdecl) "mk_Close" [];
  Fn (Some "DLLEXP") (Base TBool) (Some Cdecl) "mk_IsUpdate" [];
  Fn (Some "DLLEXP") (Base TBool) (Some Cdecl) "mk_SpDevScan" [];
  Fn (Some "DLLEXP") (Base TBool) (Some Cdecl) "mk_FindFirst"
     [P (Ptr (Base TChar)) "name"];
  Fn (Some "DLLEXP") (Base TBool) (Some Cdecl) "mk_FindNext"
     [P (Ptr (Base TChar)) "name"];
  Fn (Some "DLLEXP") (Base TBool) (Some Cdecl) "mk_FindClose" [];
  Fn (Some "DLLEXP") (Base TInt) (Some Cdecl) "mk_GetDeviceCnt" [];
  Fn (Some "DLLEXP") (Base TInt) (Some Cdecl) "mk_GetOptSnByName"
     [P (Ptr (Base TChar)) "name"; P (Ptr (Base TChar)) "sn"];
  Fn (Some "DLLEXP") (Base TInt) (Some Cdecl) "mk_OpenSpDev"
     [P (Ptr (Base TChar)) "Name"];
  Fn (Some "DLLEXP") (Base TInt) (Some Cdecl) "mk_OpenSpDev_OptSn"
     [P (Ptr (Base TChar)) "sn"];
  Fn (Some "DLLEXP") (Base TBool) (Some Cdecl) "mk_CloseSpDev"
     [P (Base TInt) "i"];
  Fn (Some "DLLEXP") (Base TBool) (Some Cdecl) "mk_Msr_Capture"
     [P (Base TInt) "i"; P (Base TUShort) "isAuto"; P (Base TUShort) "ExpTime"];
  Fn (Some "DLLEXP") (Base TBool) (Some Cdecl) "mk_Msr_Capture_multi"
     [P (Ptr (Base TInt)) "list"; P (Ptr (Base TBool)) "result";
      P (Base TInt) "dev_cnt"; P (Base TUShort) "isAuto";
      P (Base TUShort) "ExpTime"];
  Fn (Some "DLLEXP") (Base TBool) (Some Cdecl) "mk_Msr_Dark"
     [P (Base TInt) "i"];
  Fn (Some "DLLEXP") (Base TBool) (Some Cdecl) "mk_Msr_GetDarkStus"
     [P (Base TInt) "i"; P (Ptr (Base TInt)) "stus"];
  Fn (Some "DLLEXP") (Base TBool) (Some Cdecl) "mk_Msr_Dark_multi"
     [P (Ptr (Base TInt)) "list"; P (Base TInt) "dev_cnt";
      P (Ptr (Base TBool)) "pErr"];
  Fn (Some "DLLEXP") (Base TBool) (Some Cdecl) "mk_Msr_SetMaxExpTime"
     [P (Base TInt) "i"; P (Base TUInt) "maxtime"];
  Fn (Some "DLLEXP") (Base TBool) (Some Cdecl) "mk_Msr_SetExpMode"
     [P (Base TInt) "i"; P (Base TUInt) "mode"];
  Fn (Some "DLLEXP") (Base TBool) (Some Cdecl) "mk_Msr_AutoDarkCtrl"
     [P (Base TInt) "i"; P (Base TUInt) "ctl"];
  Fn (Some "DLLEXP") (Base TBool) (Some Cdecl) "mk_Msr_SetCorrMatrixCH"
     [P (Base TInt) "i"; P (Base TUInt) "ch"];
  Fn (Some "DLLEXP") (Base TBool) (Some Cdecl) "mk_Msr_GetCorrMatrixPara"
     [P (Base TInt) "i"; P (Base TUInt) "ch"; P (Ptr (Base TChar)) "name";
      P (Ptr (Base TDouble)) "data"];
  Fn (Some "DLLEXP") (Base TBool) (Some Cdecl) "mk_Msr_SetCorrMatrixPara"
     [P (Base TInt) "i"; P (Base TUInt) "ch"; P (Ptr (Base TChar)) "name";
      P (Ptr (Base TDouble)) "data"];
  Fn (Some "DLLEXP") (Base TBool) (Some Cdecl) "mk_Msr_GenerateCorrMatrix"
     [P (Ptr (Base TDouble)) "ref"; P (Ptr (Base TDouble)) "mes";
      P (Base TInt) "len"; P (Ptr (Base TDouble)) "corr";
      P (Base TInt) "colorspace"];
  Fn (Some "DLLEXP") (Base TBool) (Some Cdecl) "mk_GetData"
     [P (Base TInt) "i"; P (Base TInt) "type"; P (Ptr (Base TFloat)) "data"];
  Fn (Some "DLLEXP") (Base TBool) (Some Cdecl) "mk_GetSpectrum"
     [P (Base TInt) "i"; P (Base TInt) "str"; P (Base TInt) "stp";
      P (Ptr (Base TFloat)) "data"];
  Fn (Some "DLLEXP") (Base TBool) (Some Cdecl) "mk_GetMicroMole"
     [P (Base TInt) "i"; P (Base TInt) "str"; P (Base TInt) "stp";
      P (Ptr (Base TFloat)) "data"];
  Fn (Some "DLLEXP") (Base TBool) (Some Cdecl) "mk_GetOptSn"
     [P (Base TInt) "i"; P (Ptr (Base TChar)) "sn"];
  Fn (Some "DLLEXP") (Base TInt) (Some Cdecl) "mk_GetLightStrnegth"
     [P (Base TInt) "i"];
  Fn (Some "DLLEXP") (Base TBool) (Some Cdecl) "mk_lv_GetOptSn"
     [P (Base TInt) "i"; P (Ptr (Base TChar)) "sn"];
  Fn (Some "DLLEXP") (Base TBool) (Some Cdecl) "mk_lv_SetOptSn"
     [P (Base TInt) "i"; P (Ptr (Base TChar)) "sn"];
  Fn (Some "DLLEXP") (Base TBool) (Some Cdecl) "mk_Peri_GetTemp"
     [P (Base TInt) "i"; P (Ptr (Base TFloat)) "data"];
  Fn (Some "DLLEXP") (Base TBool) (Some Cdecl) "mk_Peri_SetLCD"
     [P (Base TInt) "i"; P (Base TUShort) "percent"];
  Fn (Some "DLLEXP") (Base TBool) (Some Cdecl) "mk_Peri_KeyEnable"
     [P (Base TInt) "i"];
  Fn (Some "DLLEXP") (Base TBool) (Some Cdecl) "mk_Peri_KeyDisable"
     [P (Base TInt) "i"];
  Fn (Some "DLLEXP") (Base TBool) (Some Cdecl) "mk_Peri_KeyClear"
     [P (Base TInt) "i"];
  Fn (Some "DLLEXP") (Base TBool) (Some Cdecl) "mk_Peri_KeyGet"
     [P (Base TInt) "i"; P (Ptr (Base TUInt)) "key"];
  Fn (Some "DLLEXP") (Base TBool) (Some Cdecl) "mk_Info_Get"
     [P (Base TInt) "i"; P (Base TInt) "id"; P (Ptr (Base TChar)) "str_info"];
  Fn (Some "DLLEXP") (Base TBool) (Some Cdecl) "mk_flk_Dark"
     [P (Base TInt) "i"];
  Fn (Some "DLLEXP") (Base TBool) (Some Cdecl) "mk_flk_SetPara"
     [P (Base TInt) "i"; P (Base TUInt) "sample_num";
      P (Base TUInt) "sample_freq"; P (Base TUInt) "fir_num";
      P (Base TUnsigned) "fir_cutfreq"];
  Fn (Some "DLLEXP") (Base TBool) (Some Cdecl) "mk_flk_Capture"
     [P (Base TInt) "i"; P (Base TUShort) "isAutoGain";
      P (Base TUShort) "gain"; P (Base TUShort) "enable_fir"];
  Fn (Some "DLLEXP") (Base TBool) (Some Cdecl) "mk_flk_GetData"
     [P (Base TInt) "i"; P (Base TInt) "type"; P (Ptr (Base TFloat)) "data"];
  Fn (Some "DLLEXP") (Base TBool) (Some Cdecl) "mk_flk_GetTimeDomainWaveform"
     [P (Base TInt) "i"; P (Base TInt) "size"; P (Ptr (Base TFloat)) "data"];
  Fn (Some "DLLEXP") (Base TBool) (Some Cdecl) "mk_flk_GetFreqDomainWaveform"
     [P (Base TInt) "i"; P (Base TInt) "size"; P (Ptr (Base TFloat)) "freq";
      P (Ptr (Base TFloat)) "data"];
  Fn (Some "DLLEXP") (Base TBool) (Some Cdecl) "mk_senr_Msr_Dark"
     [P (Base TInt) "i"];
  Fn (Some "DLLEXP") (Base TBool) (Some Cdecl) "mk_senr_Msr_Capture"
     [P (Base TInt) "i"; P (Base TUShort) "isAuto"; P (Base TUInt) "ExpTime"];
  Fn (Some "DLLEXP") (Base TBool) (Some Cdecl) "mk_sflk_Dark"
     [P (Base TInt) "i"; P (Base TUInt) "uexptime";
      P (Base TUInt) "sampletime"];
  Fn (Some "DLLEXP") (Base TBool) (Some Cdecl) "mk_sflk_SetPara"
     [P (Base TInt) "i"; P (Base TUInt) "sample_num";
      P (Base TUInt) "sample_freq"; P (Base TUInt) "fir_num";
      P (Base TUnsigned) "fir_cutfreq"];
  Fn (Some "DLLEXP") (Base TBool) (Some Cdecl) "mk_sflk_Capture"
     [P (Base TInt) "i"; P (Base TUInt) "uexptime";
      P (Base TUShort) "enable_fir"];
  Fn (Some "DLLEXP") (Base TBool) (Some Cdecl) "mk_sflk_CaptureRaw"
     [P (Base TInt) "i"; P (Base TUInt) "uexptime"; P (Ptr (Base TVoid)) "ptr"];
  Fn (Some "DLLEXP") (Base TBool) (Some Cdecl) "mk_sflk_GetData"
     [P (Base TInt) "i"; P (Base TInt) "type"; P (Ptr (Base TFloat)) "data"];
  Fn (Some "DLLEXP") (Base TBool) (Some Cdecl) "mk_senr_GetPeakSpRaw"
     [P (Base TInt) "i"; P (Base TUInt) "exptime"; P (Ptr (Base TUInt)) "data"]
].

(** ** The file: directives, the linkage block and the declarations *)

(** What a [#define] gives its macro: nothing ([#define MKUSB_H]) or a
    [__declspec(...)] attribute. *)
Inductive macro_body := MEmpty | MDeclspec (a : declspec).

Inductive line :=
| Ifndef (m : string)
| Ifdef (m : string)
| Else
| Endif
| Define (m : string) (b : macro_body)
| Include (file : string)
| ExternC_open
| Close_brace
| Declaration (d : decl).

(** Lines 1 to 14. *)
Definition prologue : list line := [
  Ifndef "MKUSB_H";
  Define "MKUSB_H" MEmpty;
  Include "windows.h";
  Ifdef "COMPILING_DLL";
  Define "DLLEXP" (MDeclspec DllExport);
  Else;
  Define "DLLEXP" (MDeclspec DllImport);
  Endif;
  Ifdef "__cplusplus";
  ExternC_open;
  Endif
].

(** Lines 123 to 127. *)
Definition epilogue : list line := [
  Ifdef "__cplusplus";
  Close_brace;
  Endif;
  Endif
].

Definition mkusb_h : list line :=
  prologue ++ (Declaration <$> header_decls) ++ epilogue.

(** ** Conditional inclusion and macro expansion *)

(** The macro table of the preprocessor: the macros defined so far, with
    their bodies.  The table the pass starts from holds what the compiler
    predefines ([__cplusplus] for a C++ compiler) and what the build
    passes on the command line ([COMPILING_DLL] when the library itself
    is built). *)
Definition defined (T : gmap string macro_body) (m : string) : bool :=
  match T !! m with Some _ => true | None => false end.

(** One open conditional.  [f_live]: the lines of the current group are
    kept.  [f_done]: no later group of this conditional may be kept,
    because one was kept already or because the conditional itself sits
    in a skipped group.  [f_else]: its [#else] was seen. *)
Record frame := Frame { f_live : bool; f_done : bool; f_else : bool }.

Definition live (st : list frame) : bool :=
  match st with [] => true | f :: _ => f_live f end.

Definition open_cond (c : bool) (st : list frame) : list frame :=
  let keep := live st && c in
  Frame keep (negb (live st) || keep) false :: st.

(** What the decoration in front of a declaration becomes. *)
Inductive decoration :=
| Attr (a : declspec)
| Blank
| Ident (m : string).

Definition expand (T : gmap string macro_body) (d : decl) : decoration :=
  match d_decor d with
  | None => Blank
  | Some m =>
      match T !! m with
      | Some (MDeclspec a) => Attr a
      | Some MEmpty => Blank
      | None => Ident m
      end
  end.

Inductive token :=
| TInclude (file : string)
| TExternC_open
| TClose_brace
| TDecl (dc : decoration) (d : decl).

(** The pass fails ([None]) on an [#else] or [#endif] without an open
    conditional, on a second [#else], and on a conditional left open at
    the end of the file.  [windows.h] is not part of the repository: its
    [#include] is passed on as a token and the macro table is taken
    across it as it is. *)
Fixpoint pp (T : gmap string macro_body) (st : list frame) (ls : list line)
  : option (list token) :=
  match ls with
  | [] => match st with [] => Some [] | _ :: _ => None end
  | l :: ls' =>
      match l with
      | Ifdef m => pp T (open_cond (defined T m) st) ls'
      | Ifndef m => pp T (open_cond (negb (defined T m)) st) ls'
      | Else =>
          match st with
          | [] => None
          | f :: st' =>
              if f_else f then None
              else pp T (Frame (negb (f_done f)) true true :: st') ls'
          end
      | Endif =>
          match st with
          | [] => None
          | _ :: st' => pp T st' ls'
          end
      | Define m b => pp (if live st then <[m := b]> T else T) st ls'
      | Include file =>
          if live st then (TInclude file ::.) <$> pp T st ls' else pp T st ls'
      | ExternC_open =>
          if live st then (TExternC_open ::.) <$> pp T st ls' else pp T st ls'
      | Close_brace =>
          if live st then (TClose_brace ::.) <$> pp T st ls' else pp T st ls'
      | Declaration d =>
          if live st then (TDecl (expand T d) d ::.) <$> pp T st ls'
          else pp T st ls'
      end
  end.

(** ** Linkage *)

Inductive language := LangC | LangCxx.

(** A C++ compiler predefines [__cplusplus]; a C compiler does not. *)
Definition language_of (T : gmap string macro_body) : language :=
  if defined T "__cplusplus" then LangCxx else LangC.

(** A function as the translation unit declares it. *)
Record export := Export {
  e_linkage : language;
  e_blocks : nat;
  e_attr : decoration;
  e_decl : decl
}.

(** A declaration inside a C linkage block has C linkage; outside, it
    has the linkage of the language.  [e_blocks] counts the blocks
    around it.  A C compiler has no linkage block:
    the opening line is a syntax error there.  So are a closing brace
    with no block open and a block left open at the end. *)
Fixpoint link (lang : language) (depth : nat) (ts : list token)
  : option (list export) :=
  match ts with
  | [] => match depth with 0 => Some [] | S _ => None end
  | TInclude _ :: ts' => link lang depth ts'
  | TExternC_open :: ts' =>
      match lang with
      | LangC => None
      | LangCxx => link lang (S depth) ts'
      end
  | TClose_brace :: ts' =>
      match depth with
      | 0 => None
      | S k => link lang k ts'
      end
  | TDecl dc d :: ts' =>
      (Export (match depth with 0 => lang | S _ => LangC end) depth dc d ::.)
        <$> link lang depth ts'
  end.

(** Including the header once in an otherwise empty translation unit,
    from the macro table [D]. *)
Definition compile (D : gmap string macro_body) : option (list export) :=
  pp D [] mkusb_h ≫= link (language_of D) 0.

Definition cxx_dll_build : gmap string macro_body :=
  {[ "__cplusplus" := MEmpty; "COMPILING_DLL" := MEmpty ]}.

(** ** Reading the declarations *)

Definition names : list string := d_name <$> header_decls.

Definition find_decl (name : string) : option decl :=
  List.find (λ d, bool_decide (d_name d = name)) header_decls.

(** The device a call works on is the [int i] it takes first. *)
Definition device_index_first (d : decl) : bool :=
  match d_params d with
  | p :: _ => bool_decide (p = P (Base TInt) "i")
  | [] => false
  end.

Definition driver_global : list string := [
  "mk_version"; "mk_Init"; "mk_Close"; "mk_IsUpdate"; "mk_SpDevScan";
  "mk_FindFirst"; "mk_FindNext"; "mk_FindClose"; "mk_GetDeviceCnt";
  "mk_GetOptSnByName"; "mk_OpenSpDev"; "mk_OpenSpDev_OptSn"
].

Definition batch_calls : list string :=
  ["mk_Msr_Capture_multi"; "mk_Msr_Dark_multi"].

Definition device_free : list string := ["mk_Msr_GenerateCorrMatrix"].

(** A parameter or result that refers to memory rather than holding a
    value, and the one shape of it with neither an extent nor a second
    level of indirection. *)
Definition is_buffer (t : ctype) : bool :=
  match t with Base _ => false | Ptr _ | Arr _ _ => true end.

Definition raw_pointer (t : ctype) : bool :=
  match t with Ptr (Base _) => true | _ => false end.

Definition takes (d : decl) (p : param) : bool :=
  bool_decide (p ∈ d_params d).

(** Identifiers are compared without regard to case: the header itself
    writes [ExpTime], [uexptime] and [exptime] for one quantity. *)
Definition lower (c : Ascii.ascii) : Ascii.ascii :=
  let n := Ascii.nat_of_ascii c in
  if (65 <=? n)%nat && (n <=? 90)%nat then Ascii.ascii_of_nat (n + 32) else c.

Fixpoint lower_string (s : string) : string :=
  match s with
  | EmptyString => EmptyString
  | String c s' => String (lower c) (lower_string s')
  end.

Fixpoint contains (pat s : string) : bool :=
  String.prefix pat s
  || match s with
     | EmptyString => false
     | String _ s' => contains pat s'
     end.

Definition mentions (word s : string) : bool :=
  contains (lower_string word) (lower_string s).

Definition versioning_words : list string := ["version"; "format"; "protocol"].

Definition concerns_versioning (d : decl) : bool :=
  existsb (λ w, mentions w (d_name d)) versioning_words.

(** The per-device queries named [mk_Get...]. *)
Definition per_device_get (d : decl) : bool :=
  String.prefix "mk_Get" (d_name d) && device_index_first d.

Definition writes_through_last (d : decl) : bool :=
  match last (d_params d) with
  | Some p => raw_pointer (p_type p)
  | None => false
  end.

(** The exposure-time parameter of a call, if it has one. *)
Definition exposure_param (d : decl) : option param :=
  List.find (λ p, mentions "exptime" (p_name p)) (d_params d).

Definition exposure_type (d : decl) : option ctype :=
  p_type <$> exposure_param d.

(** Modelled from the spec: the widths of the integer types, which the
    header leaves to the compiler (it includes [windows.h] and uses
    [__declspec], so the compiler is one for Windows): [unsigned short]
    has 16 bits and [unsigned int] has 32. *)
Definition width (b : base_type) : option Z :=
  match canon b with
  | TVoid => None
  | TBool | TChar => Some 8
  | TUShort => Some 16
  | TInt | TUInt | TUnsigned | TFloat => Some 32
  | TDouble => Some 64
  end%Z.

Definition is_unsigned (b : base_type) : bool :=
  match canon b with TUShort | TUInt => true | _ => false end.

(** Largest value of an unsigned type. *)
Definition umax (b : base_type) : option Z :=
  if is_unsigned b then (λ w, 2 ^ w - 1)%Z <$> width b else None.

Definition representable (b : base_type) (v : Z) : Prop :=
  match umax b with
  | Some m => (0 <= v <= m)%Z
  | None => False
  end.

(** Passing [v] for a parameter of unsigned type [b] converts it modulo
    two to the width. *)
Definition pass (b : base_type) (v : Z) : option Z :=
  if is_unsigned b then (λ w, v mod 2 ^ w)%Z <$> width b else None.

(** ** What the passes make of this header *)

(** The table after the prologue: the guard is set and [DLLEXP] stands
    for the export attribute when the library is built, for the import
    attribute in a client. *)
Definition dll_attr (D : gmap string macro_body) : declspec :=
  if defined D "COMPILING_DLL" then DllExport else DllImport.

Definition after_prologue (D : gmap string macro_body)
  : gmap string macro_body :=
  <["DLLEXP" := MDeclspec (dll_attr D)]> (<["MKUSB_H" := MEmpty]> D).

(** The frame of the include guard while the body of the file is read. *)
Definition guard_frame : frame := Frame true true false.

(** What including the header declares, for every macro table in which
    the guard is not yet set: all 53 functions, in order, with C linkage,
    inside the linkage block exactly when the compiler is a C++ one. *)
Definition declared (D : gmap string macro_body) (d : decl) : export :=
  Export LangC (if defined D "__cplusplus" then 1 else 0)
         (expand (after_prologue D) d) d.

(** Signature of a declared function: return type and parameter types. *)
Definition signature (name : string) : option (ctype * list ctype) :=
  (λ d, (d_ret d, p_type <$> d_params d)) <$> find_decl name.

Definition param_names (name : string) : option (list string) :=
  (λ d, p_name <$> d_params d) <$> find_decl name.

(** The type a named call takes its exposure time in. *)
Definition exposure_type_of (name : string) : option ctype :=
  find_decl name ≫= exposure_type.

(** ** The header inside a translation unit *)

(** The tokens one inclusion contributes: the include, the block opening
    for a C++ compiler, the declarations with the attribute [DLLEXP]
    stands for, and the block closing. *)
Definition included (D : gmap string macro_body) : list token :=
  (TInclude "windows.h"
   :: (if defined D "__cplusplus" then [TExternC_open] else [])
   ++ ((λ d, TDecl (Attr (dll_attr D)) d) <$> header_decls)
   ++ (if defined D "__cplusplus" then [TClose_brace] else []))%list.


(** The names the translation unit declares. *)
Definition symbols (es : list export) : list string :=
  (λ e, d_name (e_decl e)) <$> es.

(** ** Names that belong together *)

Fixpoint drop_chars (n : nat) (s : string) : string :=
  match n, s with
  | S n', String _ s' => drop_chars n' s'
  | _, _ => s
  end.

(** [replace_first a b s] puts [b] for the first [a] in [s]; [None] when
    [a] does not occur.  It takes [mk_lv_SetOptSn] to [mk_lv_GetOptSn]
    and [mk_flk_Capture] to [mk_flk_Dark]. *)
Fixpoint replace_first (a b s : string) : option string :=
  if String.prefix a s then Some (b +:+ drop_chars (String.length a) s)
  else match s with
       | EmptyString => None
       | String c s' => String c <$> replace_first a b s'
       end.

(** The declaration that differs from [d] in that one part of the name,
    if the header has one. *)
Definition counterpart (a b : string) (d : decl) : option decl :=
  replace_first a b (d_name d) ≫= find_decl.

(** The integer types a value is passed in. *)
Definition integer_type (b : base_type) : bool :=
  match b with TInt | TUInt | TUnsigned | TUShort => true | _ => false end.

Definition by_value (t : ctype) : option base_type :=
  match t with Base b => Some b | _ => None end.

(** * Properties *)

(** A decidable property of every declaration is settled by running its
    decision procedure over the list. *)
Ltac by_table :=
  refine (proj1 (Forall_forall _ _) _); apply (bool_decide_unpack _);
  vm_compute; exact I.

Example header_decls_count : length header_decls = 53.
Proof. reflexivity. Qed.

Example names_distinct : NoDup names.
Proof. apply (bool_decide_unpack _). by vm_compute. Qed.

Example compile_c_client_len : length <$> compile ∅ = Some 53.
Proof. by vm_compute. Qed.

Example compile_cxx_dll_head :
  head <$> compile cxx_dll_build
  = Some (Some (Export LangC 1 (Attr DllExport)
                 (Fn (Some "DLLEXP") (Base TUInt) (Some Cdecl) "mk_version" []))).
Proof. by vm_compute. Qed.

(** A second inclusion of the header adds nothing. *)
Example compile_second_inclusion : compile {[ "MKUSB_H" := MEmpty ]} = Some [].
Proof. by vm_compute. Qed.

(** Without the [__cplusplus] guard around the block the header would
    not compile as C. *)
Example linkage_block_is_not_c :
  link LangC 0 [TExternC_open; TClose_brace] = None.
Proof. reflexivity. Qed.

(** ** From predicates on the list to statements about its members *)

Lemma holds_of_all {A} (f : A → bool) (l : list A) :
  forallb f l = true → ∀ x, x ∈ l → f x = true.
Proof.
  induction l as [|a l IH]; intros Hall x Hx.
  - by apply elem_of_nil in Hx.
  - apply andb_true_iff in Hall as [Ha Hl].
    apply elem_of_cons in Hx as [->|Hx]; [done | by apply IH].
Qed.

Lemma find_decl_elem name d : find_decl name = Some d → d ∈ header_decls.
Proof.
  unfold find_decl. intros H. apply find_some in H as [H _].
  by apply list_elem_of_In.
Qed.

(** ** The preprocessor on the three parts of the file *)

Section Preprocess.
Variable T : gmap string macro_body.

Lemma pp_decl_line st d ls :
  pp T st (Declaration d :: ls)
  = if live st then (TDecl (expand T d) d ::.) <$> pp T st ls
    else pp T st ls.
Proof. reflexivity. Qed.

(** A run of declarations in a kept group comes out as it is, each
    decoration expanded from the table. *)
Lemma pp_decls st ds rest :
  live st = true →
  pp T st ((Declaration <$> ds) ++ rest)
  = (((λ d, TDecl (expand T d) d) <$> ds) ++.) <$> pp T st rest.
Proof.
  intros Hlive. induction ds as [|d ds IH].
  - simpl. by destruct (pp T st rest).
  - rewrite fmap_cons, <- !app_comm_cons, pp_decl_line, Hlive, IH.
    by destruct (pp T st rest).
Qed.

(** In a skipped group it leaves no trace. *)
Lemma pp_decls_skipped st ds rest :
  live st = false →
  pp T st ((Declaration <$> ds) ++ rest) = pp T st rest.
Proof.
  intros Hdead. induction ds as [|d ds IH]; [done|].
  by rewrite fmap_cons, <- app_comm_cons, pp_decl_line, Hdead.
Qed.
End Preprocess.

Lemma defined_after_prologue D m :
  m ≠ "DLLEXP" → m ≠ "MKUSB_H" → defined (after_prologue D) m = defined D m.
Proof.
  intros H1 H2. unfold defined, after_prologue.
  by rewrite !lookup_insert_ne.
Qed.

Lemma expand_after_prologue D d :
  d_decor d = Some "DLLEXP" → expand (after_prologue D) d = Attr (dll_attr D).
Proof.
  intros Hd. unfold expand, after_prologue.
  by rewrite Hd, lookup_insert_eq.
Qed.

Lemma pp_prologue D rest :
  D !! "MKUSB_H" = None →
  pp D [] (prologue ++ rest)
  = (TInclude "windows.h" ::.)
      <$> (if defined D "__cplusplus"
           then (TExternC_open ::.) <$> pp (after_prologue D) [guard_frame] rest
           else pp (after_prologue D) [guard_frame] rest).
Proof.
  intros Hguard.
  assert (Hg : defined D "MKUSB_H" = false) by (unfold defined; by rewrite Hguard).
  assert (Hkeep : defined (<["MKUSB_H" := MEmpty]> D) "COMPILING_DLL"
                  = defined D "COMPILING_DLL")
    by (unfold defined; by rewrite lookup_insert_ne).
  pose proof (defined_after_prologue D "__cplusplus") as Hcpp.
  unfold after_prologue, dll_attr in *.
  simpl. rewrite Hg. simpl. rewrite Hkeep.
  destruct (defined D "COMPILING_DLL"); simpl.
  - rewrite Hcpp by done. by destruct (defined D "__cplusplus").
  - rewrite Hcpp by done. by destruct (defined D "__cplusplus").
Qed.

Lemma pp_epilogue D :
  pp (after_prologue D) [guard_frame] epilogue
  = Some (if defined D "__cplusplus" then [TClose_brace] else []).
Proof.
  simpl. rewrite defined_after_prologue by done.
  by destruct (defined D "__cplusplus").
Qed.

(** ** Linkage of a run of declarations *)

Lemma link_decls lang depth (f : decl → decoration) ds rest :
  link lang depth (((λ d, TDecl (f d) d) <$> ds) ++ rest)
  = (((λ d, Export (match depth with 0 => lang | S _ => LangC end)
                   depth (f d) d) <$> ds) ++.)
      <$> link lang depth rest.
Proof.
  induction ds as [|d ds IH]; simpl.
  - by destruct (link lang depth rest).
  - unfold fmap in IH. rewrite IH. by destruct (link lang depth rest).
Qed.

Lemma compile_header D :
  D !! "MKUSB_H" = None → compile D = Some (declared D <$> header_decls).
Proof.
  intros Hguard. unfold compile, mkusb_h, language_of, declared.
  rewrite (pp_prologue _ _ Hguard), pp_decls, pp_epilogue by done.
  generalize header_decls as ds; intros ds.
  destruct (defined D "__cplusplus"); simpl.
  - rewrite (link_decls LangCxx 1 (expand (after_prologue D))).
    simpl. by rewrite app_nil_r.
  - rewrite (link_decls LangC 0 (expand (after_prologue D))).
    simpl. by rewrite app_nil_r.
Qed.

(** The names a client links against are the identifiers as written. *)
Lemma compile_names D :
  D !! "MKUSB_H" = None →
  fmap (M := list) (λ e, d_name (e_decl e)) <$> compile D = Some names.
Proof.
  intros Hguard. rewrite compile_header by done.
  reflexivity.
Qed.

(** Once the guard is set the header contributes nothing, whatever else
    is defined. *)
Lemma compile_included_before D :
  defined D "MKUSB_H" = true → compile D = Some [].
Proof.
  intros Hguard. unfold compile, mkusb_h.
  assert (Hskip : ∀ rest,
    pp D [] (prologue ++ rest) = pp D [Frame false false false] rest).
  { intros rest. simpl. rewrite Hguard. reflexivity. }
  rewrite Hskip, pp_decls_skipped by done.
  simpl. unfold language_of. by destruct (defined D "__cplusplus").
Qed.

(** So the header can be included from any macro table. *)
Lemma compile_total D : is_Some (compile D).
Proof.
  destruct (defined D "MKUSB_H") eqn:Hguard.
  - rewrite compile_included_before by done. by eexists.
  - rewrite compile_header; [by eexists|].
    unfold defined in Hguard. by destruct (D !! "MKUSB_H").
Qed.

Lemma decls_spelling d :
  d ∈ header_decls → d_decor d = Some "DLLEXP" ∧ d_cc d = Some Cdecl.
Proof.
  intros Hd.
  pose proof (holds_of_all
    (λ d, bool_decide (d_decor d = Some "DLLEXP" ∧ d_cc d = Some Cdecl))
    header_decls eq_refl d Hd) as H.
  by apply bool_decide_eq_true in H.
Qed.

(** ** Return types *)

(** C1, as stated, fails: [mk_Close] is declared [void], which is
    neither [bool] nor one of the two integer types. *)
Lemma mk_Close_returns_void :
  find_decl "mk_Close"
  = Some (Fn (Some "DLLEXP") (Base TVoid) (Some Cdecl) "mk_Close" [])
  ∧ ¬ (∀ d, d ∈ header_decls →
         d_ret d = Base TBool ∨ d_ret d = Base TInt ∨ d_ret d = Base TUInt).
Proof.
  split; [reflexivity|].
  intros Hall.
  destruct (Hall (Fn (Some "DLLEXP") (Base TVoid) (Some Cdecl) "mk_Close" []))
    as [H|[H|H]]; try discriminate H.
  apply (find_decl_elem "mk_Close"). reflexivity.
Qed.

(** C1, amended: every declared function other than [mk_Close] returns
    [bool], [int] or [unsigned int]; [mk_Close] returns [void]; no other
    return type occurs. *)
Theorem return_types (d : decl) :
  d ∈ header_decls →
  (d_name d = "mk_Close" ∧ d_ret d = Base TVoid)
  ∨ (d_name d ≠ "mk_Close"
     ∧ (d_ret d = Base TBool ∨ d_ret d = Base TInt ∨ d_ret d = Base TUInt)).
Proof.
  revert d. by_table.
Qed.

Lemma return_types_witness :
  let d := Fn (Some "DLLEXP") (Base TInt) (Some Cdecl) "mk_GetDeviceCnt" [] in
  (d_name d = "mk_Close" ∧ d_ret d = Base TVoid)
  ∨ (d_name d ≠ "mk_Close"
     ∧ (d_ret d = Base TBool ∨ d_ret d = Base TInt ∨ d_ret d = Base TUInt)).
Proof.
  apply return_types.
  apply (find_decl_elem "mk_GetDeviceCnt"). reflexivity.
Defined.

(** The integer results: one version number, one count, three handles or
    indices and one measured value. *)
Example integer_results :
  d_name <$> filter (λ d, d_ret d ≠ Base TBool ∧ d_ret d ≠ Base TVoid)
                    header_decls
  = ["mk_version"; "mk_GetDeviceCnt"; "mk_GetOptSnByName"; "mk_OpenSpDev";
     "mk_OpenSpDev_OptSn"; "mk_GetLightStrnegth"].
Proof. by vm_compute. Qed.

(** ** Device lifecycle *)

(** C2.  The lifecycle declarations: [mk_Init] takes [isMonitor] and
    [msec] and [mk_Close] takes nothing; [mk_SpDevScan], [mk_FindFirst],
    [mk_FindNext] and [mk_FindClose] enumerate, the middle two through a
    [name] string; [mk_OpenSpDev] opens by name and [mk_OpenSpDev_OptSn]
    by serial number, each returning [int]; [mk_CloseSpDev] closes by
    index; [mk_GetDeviceCnt] returns [int]. *)
Theorem lifecycle_surface :
  signature "mk_Init" = Some (Base TBool, [Base TInt; Base TInt])
  ∧ param_names "mk_Init" = Some ["isMonitor"; "msec"]
  ∧ signature "mk_Close" = Some (Base TVoid, [])
  ∧ signature "mk_SpDevScan" = Some (Base TBool, [])
  ∧ signature "mk_FindFirst" = Some (Base TBool, [Ptr (Base TChar)])
  ∧ param_names "mk_FindFirst" = Some ["name"]
  ∧ signature "mk_FindNext" = Some (Base TBool, [Ptr (Base TChar)])
  ∧ param_names "mk_FindNext" = Some ["name"]
  ∧ signature "mk_FindClose" = Some (Base TBool, [])
  ∧ signature "mk_OpenSpDev" = Some (Base TInt, [Ptr (Base TChar)])
  ∧ param_names "mk_OpenSpDev" = Some ["Name"]
  ∧ signature "mk_OpenSpDev_OptSn" = Some (Base TInt, [Ptr (Base TChar)])
  ∧ param_names "mk_OpenSpDev_OptSn" = Some ["sn"]
  ∧ signature "mk_CloseSpDev" = Some (Base TBool, [Base TInt])
  ∧ param_names "mk_CloseSpDev" = Some ["i"]
  ∧ signature "mk_GetDeviceCnt" = Some (Base TInt, []).
Proof. repeat split; reflexivity. Qed.

(** ** Calling convention, decoration and linkage *)

(** C3.  Whatever the build defines, as long as the header has not been
    included before, including it declares the 53 functions, each with
    the [__cdecl] keyword and the [DLLEXP] decoration, which stands for
    the export attribute when [COMPILING_DLL] is defined and for the
    import attribute otherwise; under a C++ compiler each lies in the one
    linkage block; and in both languages each has C linkage. *)
Theorem exported_surface_linkage (D : gmap string macro_body) :
  D !! "MKUSB_H" = None →
  ∃ es,
    compile D = Some es
    ∧ e_decl <$> es = header_decls
    ∧ ∀ e, e ∈ es →
        d_cc (e_decl e) = Some Cdecl
        ∧ d_decor (e_decl e) = Some "DLLEXP"
        ∧ e_attr e
          = Attr (if defined D "COMPILING_DLL" then DllExport else DllImport)
        ∧ e_blocks e = (if defined D "__cplusplus" then 1 else 0)
        ∧ e_linkage e = LangC.
Proof.
  intros Hguard. exists (declared D <$> header_decls).
  split; [by apply compile_header|]. split.
  - rewrite <- list_fmap_compose. apply list_fmap_id.
  - intros e He. apply list_elem_of_fmap in He as (d & -> & Hd).
    destruct (decls_spelling d Hd) as [Hdecor Hcc]. simpl.
    by rewrite (expand_after_prologue D d Hdecor).
Qed.

Lemma exported_surface_linkage_witness :
  cxx_dll_build !! "MKUSB_H" = None
  ∧ ∃ es,
      compile cxx_dll_build = Some es
      ∧ e_decl <$> es = header_decls
      ∧ ∀ e, e ∈ es →
          d_cc (e_decl e) = Some Cdecl
          ∧ d_decor (e_decl e) = Some "DLLEXP"
          ∧ e_attr e
            = Attr (if defined cxx_dll_build "COMPILING_DLL"
                    then DllExport else DllImport)
          ∧ e_blocks e = (if defined cxx_dll_build "__cplusplus" then 1 else 0)
          ∧ e_linkage e = LangC.
Proof.
  split; [reflexivity|].
  apply exported_surface_linkage. reflexivity.
Defined.

(** ** Device indices *)

(** C4.  A declared function does not take the device index [int i]
    first exactly when it is one of the twelve driver-global calls, one
    of the two batch calls or [mk_Msr_GenerateCorrMatrix]; all fifteen
    are declared; the batch calls take the [int *list] of devices first;
    the other thirteen take neither an index named [i] nor a list of
    indices. *)
Theorem device_index_convention (d : decl) :
  d ∈ header_decls →
  (device_index_first d = false
   ↔ d_name d ∈ (driver_global ++ batch_calls ++ device_free)%list)
  ∧ (device_index_first d = true
     → head (d_params d) = Some (P (Base TInt) "i"))
  ∧ (d_name d ∈ batch_calls
     → head (d_params d) = Some (P (Ptr (Base TInt)) "list"))
  ∧ (d_name d ∈ (driver_global ++ device_free)%list
     → Forall (λ p, p_name p ≠ "i" ∧ p_type p ≠ Ptr (Base TInt)) (d_params d))
  ∧ (driver_global ++ batch_calls ++ device_free)%list ⊆ names.
Proof. revert d. by_table. Qed.

Lemma device_index_convention_witness :
  let d := Fn (Some "DLLEXP") (Base TBool) (Some Cdecl) "mk_Msr_Dark_multi"
              [P (Ptr (Base TInt)) "list"; P (Base TInt) "dev_cnt";
               P (Ptr (Base TBool)) "pErr"] in
  (device_index_first d = false
   ↔ d_name d ∈ (driver_global ++ batch_calls ++ device_free)%list)
  ∧ (device_index_first d = true
     → head (d_params d) = Some (P (Base TInt) "i"))
  ∧ (d_name d ∈ batch_calls
     → head (d_params d) = Some (P (Ptr (Base TInt)) "list"))
  ∧ (d_name d ∈ (driver_global ++ device_free)%list
     → Forall (λ p, p_name p ≠ "i" ∧ p_type p ≠ Ptr (Base TInt)) (d_params d))
  ∧ (driver_global ++ batch_calls ++ device_free)%list ⊆ names.
Proof.
  apply device_index_convention.
  apply (find_decl_elem "mk_Msr_Dark_multi"). reflexivity.
Defined.

(** The 38 remaining declarations are the per-device ones. *)
Example per_device_count :
  length (filter (λ d, device_index_first d = true) header_decls) = 38.
Proof. by vm_compute. Qed.

(** ** Buffers and versioning *)

(** C5.  No declared function returns a pointer or an array; every
    parameter that refers to memory is a pointer straight to a scalar
    type or to [void], without an extent and without a second level, so
    each buffer is the caller's and its size is nowhere in its type.
    [mk_version] is declared without parameters and returns
    [unsigned int], and it is the only declaration whose name speaks of a
    version, a format or a protocol. *)
Theorem buffers_and_versioning (d : decl) :
  d ∈ header_decls →
  is_buffer (d_ret d) = false
  ∧ Forall (λ p, is_buffer (p_type p) = true → ∃ b, p_type p = Ptr (Base b))
           (d_params d)
  ∧ (concerns_versioning d = true → d_name d = "mk_version")
  ∧ signature "mk_version" = Some (Base TUInt, [])
  ∧ (concerns_versioning <$> find_decl "mk_version") = Some true.
Proof.
  intros Hd.
  assert (Hshape : is_buffer (d_ret d) = false
                   ∧ Forall (λ p, raw_pointer (p_type p) = is_buffer (p_type p))
                            (d_params d)
                   ∧ (concerns_versioning d = true → d_name d = "mk_version"))
    by (revert d Hd; by_table).
  destruct Hshape as (Hret & Hpar & Hver).
  repeat split; try done.
  eapply Forall_impl; [exact Hpar|].
  intros [t n]; simpl. intros Heq Hbuf. rewrite Hbuf in Heq.
  destruct t as [b|[b|t|t e]|t e]; try discriminate Heq. by exists b.
Qed.

Lemma buffers_and_versioning_witness :
  let d := Fn (Some "DLLEXP") (Base TBool) (Some Cdecl) "mk_sflk_CaptureRaw"
              [P (Base TInt) "i"; P (Base TUInt) "uexptime";
               P (Ptr (Base TVoid)) "ptr"] in
  is_buffer (d_ret d) = false
  ∧ Forall (λ p, is_buffer (p_type p) = true → ∃ b, p_type p = Ptr (Base b))
           (d_params d)
  ∧ (concerns_versioning d = true → d_name d = "mk_version")
  ∧ signature "mk_version" = Some (Base TUInt, [])
  ∧ (concerns_versioning <$> find_decl "mk_version") = Some true.
Proof.
  apply buffers_and_versioning.
  apply (find_decl_elem "mk_sflk_CaptureRaw"). reflexivity.
Defined.

(** The test does tell names apart. *)
Example mentions_examples :
  mentions "version" "mk_version" = true
  ∧ mentions "version" "mk_GetFirmwareVersion" = true
  ∧ mentions "version" "mk_IsUpdate" = false
  ∧ mentions "exptime" "ExpTime" = true
  ∧ mentions "exptime" "maxtime" = false.
Proof. by vm_compute. Qed.

(** ** Calibration *)

(** C6.  [mk_Msr_GetCorrMatrixPara] and [mk_Msr_SetCorrMatrixPara] each
    take the device index, an [unsigned int] channel, a [name] string and
    a [double] array; [mk_Msr_GenerateCorrMatrix] takes the reference and
    the measured [double] arrays, their [int] length, the [double] output
    buffer and an [int] colour-space selector, and returns [bool]. *)
Theorem calibration_surface :
  find_decl "mk_Msr_GetCorrMatrixPara"
  = Some (Fn (Some "DLLEXP") (Base TBool) (Some Cdecl) "mk_Msr_GetCorrMatrixPara"
             [P (Base TInt) "i"; P (Base TUInt) "ch"; P (Ptr (Base TChar)) "name";
              P (Ptr (Base TDouble)) "data"])
  ∧ find_decl "mk_Msr_SetCorrMatrixPara"
    = Some (Fn (Some "DLLEXP") (Base TBool) (Some Cdecl) "mk_Msr_SetCorrMatrixPara"
               [P (Base TInt) "i"; P (Base TUInt) "ch";
                P (Ptr (Base TChar)) "name"; P (Ptr (Base TDouble)) "data"])
  ∧ find_decl "mk_Msr_GenerateCorrMatrix"
    = Some (Fn (Some "DLLEXP") (Base TBool) (Some Cdecl)
               "mk_Msr_GenerateCorrMatrix"
               [P (Ptr (Base TDouble)) "ref"; P (Ptr (Base TDouble)) "mes";
                P (Base TInt) "len"; P (Ptr (Base TDouble)) "corr";
                P (Base TInt) "colorspace"]).
Proof. repeat split. Qed.

(** ** Data retrieval *)

(** C7.  [mk_GetData] takes the device index, an [int] type selector and
    a [float] buffer; [mk_GetSpectrum] and [mk_GetMicroMole] take the
    index, the [int] bounds [str] and [stp] and a [float] buffer; the
    light-strength query takes the index and returns [int];
    [mk_senr_GetPeakSpRaw] takes the index, an [unsigned int] exposure
    time and an [unsigned int] buffer. *)
Theorem data_retrieval_surface :
  signature "mk_GetData"
  = Some (Base TBool, [Base TInt; Base TInt; Ptr (Base TFloat)])
  ∧ param_names "mk_GetData" = Some ["i"; "type"; "data"]
  ∧ signature "mk_GetSpectrum"
    = Some (Base TBool, [Base TInt; Base TInt; Base TInt; Ptr (Base TFloat)])
  ∧ param_names "mk_GetSpectrum" = Some ["i"; "str"; "stp"; "data"]
  ∧ signature "mk_GetMicroMole"
    = Some (Base TBool, [Base TInt; Base TInt; Base TInt; Ptr (Base TFloat)])
  ∧ param_names "mk_GetMicroMole" = Some ["i"; "str"; "stp"; "data"]
  ∧ signature "mk_GetLightStrnegth" = Some (Base TInt, [Base TInt])
  ∧ param_names "mk_GetLightStrnegth" = Some ["i"]
  ∧ signature "mk_senr_GetPeakSpRaw"
    = Some (Base TBool, [Base TInt; Base TUInt; Ptr (Base TUInt)])
  ∧ param_names "mk_senr_GetPeakSpRaw" = Some ["i"; "exptime"; "data"].
Proof. repeat split. Qed.

(** ** The light-strength query *)

(** C8.  The header declares [mk_GetLightStrnegth], spelled so, and no
    [mk_GetLightStrength].  Among the per-device queries named
    [mk_Get...] it alone returns [int] and takes nothing but the device
    index; every other one returns [bool] and ends in a pointer to write
    the value through. *)
Theorem light_strength_query (d : decl) :
  d ∈ header_decls →
  per_device_get d = true →
  ((d_name d = "mk_GetLightStrnegth"
    ∧ d_ret d = Base TInt ∧ d_params d = [P (Base TInt) "i"])
   ∨ (d_name d ≠ "mk_GetLightStrnegth"
      ∧ d_ret d = Base TBool ∧ writes_through_last d = true))
  ∧ "mk_GetLightStrnegth" ∈ names
  ∧ ("mk_GetLightStrength" ∉ names)
  ∧ (per_device_get <$> find_decl "mk_GetLightStrnegth") = Some true.
Proof. revert d. by_table. Qed.

Lemma light_strength_query_witness :
  let d := Fn (Some "DLLEXP") (Base TInt) (Some Cdecl) "mk_GetLightStrnegth"
              [P (Base TInt) "i"] in
  ((d_name d = "mk_GetLightStrnegth"
    ∧ d_ret d = Base TInt ∧ d_params d = [P (Base TInt) "i"])
   ∨ (d_name d ≠ "mk_GetLightStrnegth"
      ∧ d_ret d = Base TBool ∧ writes_through_last d = true))
  ∧ "mk_GetLightStrnegth" ∈ names
  ∧ ("mk_GetLightStrength" ∉ names)
  ∧ (per_device_get <$> find_decl "mk_GetLightStrnegth") = Some true.
Proof.
  apply light_strength_query; [|reflexivity].
  apply (find_decl_elem "mk_GetLightStrnegth"). reflexivity.
Defined.

Example per_device_get_names :
  d_name <$> filter (λ d, per_device_get d = true) header_decls
  = ["mk_GetData"; "mk_GetSpectrum"; "mk_GetMicroMole"; "mk_GetOptSn";
     "mk_GetLightStrnegth"].
Proof. by vm_compute. Qed.

(** It is in fact the only per-device declaration of the whole header
    that does not return [bool]. *)
Example per_device_non_bool :
  d_name <$> filter (λ d, device_index_first d = true ∧ d_ret d ≠ Base TBool)
                    header_decls
  = ["mk_GetLightStrnegth"].
Proof. by vm_compute. Qed.

(** ** Batch calls *)

(** X14.  Each batch call returns [bool] and takes an [int *list], an
    [int dev_cnt] and one pointer to [bool], named [result] in
    [mk_Msr_Capture_multi] and [pErr] in [mk_Msr_Dark_multi]; no other
    declaration takes a pointer to [bool].  The header gives the pointer
    neither an extent nor a direction: what is written through it is
    decided in the vendor library. *)
Theorem batch_outcome_arrays :
  find_decl "mk_Msr_Capture_multi"
  = Some (Fn (Some "DLLEXP") (Base TBool) (Some Cdecl) "mk_Msr_Capture_multi"
             [P (Ptr (Base TInt)) "list"; P (Ptr (Base TBool)) "result";
              P (Base TInt) "dev_cnt"; P (Base TUShort) "isAuto";
              P (Base TUShort) "ExpTime"])
  ∧ find_decl "mk_Msr_Dark_multi"
    = Some (Fn (Some "DLLEXP") (Base TBool) (Some Cdecl) "mk_Msr_Dark_multi"
               [P (Ptr (Base TInt)) "list"; P (Base TInt) "dev_cnt";
                P (Ptr (Base TBool)) "pErr"])
  ∧ Forall (λ d, Exists (λ p, p_type p = Ptr (Base TBool)) (d_params d)
                 ↔ d_name d ∈ batch_calls)
           header_decls
  ∧ Forall (λ d, d_name d ∈ batch_calls →
                 d_ret d = Base TBool
                 ∧ takes d (P (Ptr (Base TInt)) "list") = true
                 ∧ takes d (P (Base TInt) "dev_cnt") = true)
           header_decls.
Proof.
  split; [reflexivity|]. split; [reflexivity|].
  split; apply (bool_decide_unpack _); by vm_compute.
Qed.

(** ** Exposure times *)

(** C10.  [mk_Msr_Capture] takes its exposure time as [unsigned short],
    16 bits wide with largest value 65535; [mk_senr_Msr_Capture],
    [mk_sflk_Dark], [mk_sflk_Capture], [mk_sflk_CaptureRaw] and
    [mk_senr_GetPeakSpRaw] take theirs as [unsigned int], 32 bits wide.
    So every exposure time above 65535 that the second group can be given
    cannot be given to [mk_Msr_Capture]: passed there it arrives as
    another value. *)
Theorem exposure_width_mismatch (v : Z) :
  (65535 < v <= 4294967295)%Z →
  exposure_type_of "mk_Msr_Capture" = Some (Base TUShort)
  ∧ Forall (λ n, exposure_type_of n = Some (Base TUInt))
           ["mk_senr_Msr_Capture"; "mk_sflk_Dark"; "mk_sflk_Capture";
            "mk_sflk_CaptureRaw"; "mk_senr_GetPeakSpRaw"]
  ∧ width TUShort = Some 16%Z ∧ umax TUShort = Some 65535%Z
  ∧ width TUInt = Some 32%Z ∧ umax TUInt = Some 4294967295%Z
  ∧ representable TUInt v
  ∧ ¬ representable TUShort v
  ∧ (∃ v', pass TUShort v = Some v' ∧ v' ≠ v).
Proof.
  intros Hv.
  split; [reflexivity|].
  split; [repeat constructor|].
  repeat (split; [reflexivity|]).
  unfold representable, pass. cbn.
  split; [lia|]. split; [lia|].
  exists (v mod 65536)%Z. split; [reflexivity|].
  pose proof (Z.mod_pos_bound v 65536 ltac:(lia)). lia.
Qed.

Lemma exposure_width_mismatch_witness :
  (65535 < 100000 <= 4294967295)%Z
  ∧ exposure_type_of "mk_Msr_Capture" = Some (Base TUShort)
  ∧ Forall (λ n, exposure_type_of n = Some (Base TUInt))
           ["mk_senr_Msr_Capture"; "mk_sflk_Dark"; "mk_sflk_Capture";
            "mk_sflk_CaptureRaw"; "mk_senr_GetPeakSpRaw"]
  ∧ width TUShort = Some 16%Z ∧ umax TUShort = Some 65535%Z
  ∧ width TUInt = Some 32%Z ∧ umax TUInt = Some 4294967295%Z
  ∧ representable TUInt 100000
  ∧ ¬ representable TUShort 100000
  ∧ (∃ v', pass TUShort 100000 = Some v' ∧ v' ≠ 100000%Z).
Proof.
  split; [lia|]. apply exposure_width_mismatch. lia.
Defined.

(** A hundred milliseconds in microseconds arrives as 34464. *)
Example pass_100000 : pass TUShort 100000 = Some 34464%Z.
Proof. reflexivity. Qed.

(** The calls with an exposure time, by the type they take it in. *)
Example exposure_types :
  omap (λ d, (d_name d,.) <$> exposure_type d) header_decls
  = [("mk_Msr_Capture", Base TUShort);
     ("mk_Msr_Capture_multi", Base TUShort);
     ("mk_senr_Msr_Capture", Base TUInt);
     ("mk_sflk_Dark", Base TUInt);
     ("mk_sflk_Capture", Base TUInt);
     ("mk_sflk_CaptureRaw", Base TUInt);
     ("mk_senr_GetPeakSpRaw", Base TUInt)].
Proof. by vm_compute. Qed.

(** * The header among other code *)

(** ** The three parts of the file under any open conditionals *)

Lemma pp_prologue_at D st rest :
  live st = true →
  D !! "MKUSB_H" = None →
  pp D st (prologue ++ rest)
  = (TInclude "windows.h" ::.)
      <$> (if defined D "__cplusplus"
           then (TExternC_open ::.)
                  <$> pp (after_prologue D) (guard_frame :: st) rest
           else pp (after_prologue D) (guard_frame :: st) rest).
Proof.
  intros Hlive Hguard.
  assert (Hg : defined D "MKUSB_H" = false)
    by (unfold defined; by rewrite Hguard).
  assert (Hkeep : defined (<["MKUSB_H" := MEmpty]> D) "COMPILING_DLL"
                  = defined D "COMPILING_DLL")
    by (unfold defined; by rewrite lookup_insert_ne).
  pose proof (defined_after_prologue D "__cplusplus") as Hcpp.
  unfold after_prologue, dll_attr, guard_frame in *.
  simpl. rewrite Hg, Hlive. simpl. rewrite Hkeep.
  destruct (defined D "COMPILING_DLL"); simpl.
  - rewrite Hcpp by done. unfold open_cond. rewrite Hlive.
    by destruct (defined D "__cplusplus").
  - rewrite Hcpp by done. unfold open_cond. rewrite Hlive.
    by destruct (defined D "__cplusplus").
Qed.

Lemma pp_epilogue_at T st rest :
  pp T (guard_frame :: st) (epilogue ++ rest)
  = if defined T "__cplusplus" then (TClose_brace ::.) <$> pp T st rest
    else pp T st rest.
Proof. simpl. by destruct (defined T "__cplusplus"). Qed.

(** In a group that is not kept every line of the file goes by. *)
Lemma pp_file_skipped D st dn rest :
  pp D (Frame false dn false :: st)
     (tail prologue ++ (Declaration <$> header_decls) ++ epilogue ++ rest)%list
  = pp D st rest.
Proof.
  change (tail prologue ++ (Declaration <$> header_decls) ++ epilogue ++ rest)%list
    with (Define "MKUSB_H" MEmpty :: Include "windows.h"
          :: Ifdef "COMPILING_DLL" :: Define "DLLEXP" (MDeclspec DllExport)
          :: Else :: Define "DLLEXP" (MDeclspec DllImport) :: Endif
          :: Ifdef "__cplusplus" :: ExternC_open :: Endif
          :: (Declaration <$> header_decls) ++ epilogue ++ rest)%list.
  cbn -[header_decls epilogue fmap].
  rewrite pp_decls_skipped by done.
  reflexivity.
Qed.

Lemma expand_header_decls D :
  (λ d, TDecl (expand (after_prologue D) d) d) <$> header_decls
  = (λ d, TDecl (Attr (dll_attr D)) d) <$> header_decls.
Proof.
  apply list_fmap_ext. intros i d Hd. apply list_elem_of_lookup_2 in Hd.
  destruct (decls_spelling d Hd) as [Hdecor _].
  by rewrite (expand_after_prologue D d Hdecor).
Qed.

Lemma pp_first_inclusion D st rest :
  live st = true →
  D !! "MKUSB_H" = None →
  pp D st (mkusb_h ++ rest) = (included D ++.) <$> pp (after_prologue D) st rest.
Proof.
  intros Hlive Hguard. unfold mkusb_h, included.
  rewrite <- !app_assoc.
  rewrite pp_prologue_at, pp_decls, pp_epilogue_at by done.
  rewrite expand_header_decls.
  rewrite defined_after_prologue by done.
  generalize ((λ d, TDecl (Attr (dll_attr D)) d) <$> header_decls) as ds.
  intros ds.
  destruct (defined D "__cplusplus"), (pp (after_prologue D) st rest) as [ts|];
    simpl; try reflexivity.
  - by rewrite <- app_assoc.
  - by rewrite app_nil_r.
Qed.

Lemma prologue_head : prologue = Ifndef "MKUSB_H" :: tail prologue.
Proof. reflexivity. Qed.

Lemma pp_ifndef_line T st m ls :
  pp T st (Ifndef m :: ls) = pp T (open_cond (negb (defined T m)) st) ls.
Proof. reflexivity. Qed.

Lemma pp_define_line T st m b ls :
  pp T st (Define m b :: ls) = pp (if live st then <[m := b]> T else T) st ls.
Proof. reflexivity. Qed.

Lemma pp_skipped_inclusion D st rest :
  live st = false ∨ defined D "MKUSB_H" = true →
  pp D st (mkusb_h ++ rest) = pp D st rest.
Proof.
  intros Hskip. unfold mkusb_h. rewrite <- !app_assoc.
  rewrite prologue_head, <- app_comm_cons, pp_ifndef_line.
  unfold open_cond.
  destruct Hskip as [Hdead|Hguard].
  - rewrite Hdead. cbn [andb negb orb]. apply pp_file_skipped.
  - rewrite Hguard. cbn [negb]. rewrite andb_false_r, orb_false_r.
    destruct (live st); apply pp_file_skipped.
Qed.

Lemma included_guard_set D : defined (after_prologue D) "MKUSB_H" = true.
Proof.
  unfold defined, after_prologue.
  rewrite lookup_insert_ne by done. by rewrite lookup_insert_eq.
Qed.

(** ** What one inclusion contributes and what it leaves behind *)

(** X1.  Included where lines are kept and the guard is not yet set, the
    header closes every conditional it opened: whatever follows is read
    under the conditionals that were open before, after the tokens of
    the header, which do not depend on what follows.  It leaves
    [MKUSB_H] defined and [DLLEXP] defined as the export attribute
    under [COMPILING_DLL] and as the import attribute otherwise.  Of
    the other macros nothing is said: [windows.h] is read in between. *)
Theorem first_inclusion (D : gmap string macro_body) (st : list frame) :
  live st = true →
  D !! "MKUSB_H" = None →
  ∃ T' ts,
    (∀ rest, pp D st (mkusb_h ++ rest) = (ts ++.) <$> pp T' st rest)
    ∧ T' !! "MKUSB_H" = Some MEmpty
    ∧ T' !! "DLLEXP"
      = Some (MDeclspec (if defined D "COMPILING_DLL"
                         then DllExport else DllImport)).
Proof.
  intros Hlive Hguard. exists (after_prologue D), (included D).
  split; [intros rest; by apply pp_first_inclusion|].
  unfold after_prologue, dll_attr. split.
  - rewrite lookup_insert_ne by done. apply lookup_insert_eq.
  - apply lookup_insert_eq.
Qed.

Lemma first_inclusion_witness :
  ∃ T' ts,
    (∀ rest, pp ∅ [] (mkusb_h ++ rest) = (ts ++.) <$> pp T' [] rest)
    ∧ T' !! "MKUSB_H" = Some MEmpty
    ∧ T' !! "DLLEXP"
      = Some (MDeclspec (if defined ∅ "COMPILING_DLL"
                         then DllExport else DllImport)).
Proof. apply first_inclusion; reflexivity. Defined.

(** A header that left its guard open would not have the property: what
    follows would be read inside the guard and the file would end with a
    conditional open. *)
Example unclosed_guard_fails :
  pp ∅ [] (prologue ++ (Declaration <$> header_decls)
           ++ [Ifdef "__cplusplus"; Close_brace; Endif])
  = None.
Proof. by vm_compute. Qed.

(** X2.  Included in a group that is skipped, or once the guard is set,
    the header is as if it were not there: no token, no change to the
    macro table, no conditional left open. *)
Theorem skipped_inclusion (D : gmap string macro_body) (st : list frame)
    (rest : list line) :
  live st = false ∨ defined D "MKUSB_H" = true →
  pp D st (mkusb_h ++ rest) = pp D st rest.
Proof. apply pp_skipped_inclusion. Qed.

Lemma skipped_inclusion_witness :
  pp {[ "MKUSB_H" := MEmpty ]} [] (mkusb_h ++ [Include "stdio.h"])
  = pp {[ "MKUSB_H" := MEmpty ]} [] [Include "stdio.h"].
Proof. apply skipped_inclusion. right. reflexivity. Defined.

(** X3.  Including the header a second time changes nothing, wherever
    the two inclusions stand and whatever follows them. *)
Theorem second_inclusion_adds_nothing (D : gmap string macro_body)
    (st : list frame) (rest : list line) :
  pp D st (mkusb_h ++ mkusb_h ++ rest) = pp D st (mkusb_h ++ rest).
Proof.
  destruct (live st) eqn:Hlive.
  - destruct (D !! "MKUSB_H") as [b|] eqn:Hguard.
    + assert (defined D "MKUSB_H" = true) by (unfold defined; by rewrite Hguard).
      rewrite !pp_skipped_inclusion by auto. reflexivity.
    + rewrite (pp_first_inclusion D st (mkusb_h ++ rest)) by done.
      rewrite (pp_first_inclusion D st rest) by done.
      rewrite pp_skipped_inclusion; [done|].
      right. apply included_guard_set.
  - rewrite !pp_skipped_inclusion by auto. reflexivity.
Qed.

(** What a [DLLEXP] defined with body [b] stands for. *)
Lemma expand_defined T b d :
  d_decor d = Some "DLLEXP" →
  expand (<["DLLEXP" := b]> T) d
  = match b with MDeclspec a => Attr a | MEmpty => Blank end.
Proof.
  intros Hd. unfold expand. rewrite Hd, lookup_insert_eq. by destruct b.
Qed.

(** X4.  The includer defines [DLLEXP], includes the header, and then
    decorates a declaration of its own with [DLLEXP].  On a first
    inclusion ([MKUSB_H] not yet defined) the includer's definition is
    lost: the declaration gets the header's attribute, export under
    [COMPILING_DLL] and import otherwise.  On a later inclusion the
    header is skipped and the includer's definition stands. *)
Theorem includer_DLLEXP_after_inclusion (D : gmap string macro_body)
    (b : macro_body) (d : decl) :
  d_decor d = Some "DLLEXP" →
  pp D [] (Define "DLLEXP" b :: mkusb_h ++ [Declaration d])
  = Some (if defined D "MKUSB_H"
          then [TDecl (match b with MDeclspec a => Attr a | MEmpty => Blank end)
                      d]
          else included D
               ++ [TDecl (Attr (if defined D "COMPILING_DLL"
                                then DllExport else DllImport)) d])%list.
Proof.
  intros Hd.
  assert (Hsame : ∀ m, m ≠ "DLLEXP" →
                       defined (<["DLLEXP" := b]> D) m = defined D m)
    by (intros m Hm; unfold defined; by rewrite lookup_insert_ne).
  rewrite pp_define_line. cbn [live].
  destruct (defined D "MKUSB_H") eqn:Hguard.
  - rewrite pp_skipped_inclusion by (right; by rewrite Hsame).
    rewrite pp_decl_line. cbn [pp live fmap option_fmap option_map].
    by rewrite expand_defined.
  - assert (D !! "MKUSB_H" = None)
      by (unfold defined in Hguard; by destruct (D !! "MKUSB_H")).
    rewrite pp_first_inclusion by (done || by rewrite lookup_insert_ne).
    rewrite pp_decl_line. cbn [pp live fmap option_fmap option_map].
    rewrite expand_after_prologue by done.
    unfold included, dll_attr. by rewrite !Hsame.
Qed.

Lemma includer_DLLEXP_after_inclusion_witness :
  let d := Fn (Some "DLLEXP") (Base TInt) (Some Cdecl) "my_export" [] in
  pp ∅ [] (Define "DLLEXP" (MDeclspec DllExport)
           :: mkusb_h ++ [Declaration d])
  = Some (if defined ∅ "MKUSB_H"
          then [TDecl (match MDeclspec DllExport with
                       | MDeclspec a => Attr a
                       | MEmpty => Blank
                       end) d]
          else included ∅
               ++ [TDecl (Attr (if defined ∅ "COMPILING_DLL"
                                then DllExport else DllImport)) d])%list.
Proof. apply includer_DLLEXP_after_inclusion; reflexivity. Defined.

(** Both cases in one client file: the header, the includer's own
    definition, the header again, the declaration. *)
Example includer_DLLEXP_stands_after_second_inclusion :
  let d := Fn (Some "DLLEXP") (Base TInt) (Some Cdecl) "my_export" [] in
  last <$> pp ∅ [] (mkusb_h ++ Define "DLLEXP" (MDeclspec DllExport)
                    :: mkusb_h ++ [Declaration d])
  = Some (Some (TDecl (Attr DllExport) d)).
Proof. by vm_compute. Qed.

Example includer_DLLEXP_lost_after_first_inclusion :
  let d := Fn (Some "DLLEXP") (Base TInt) (Some Cdecl) "my_export" [] in
  last <$> pp ∅ [] (Define "DLLEXP" (MDeclspec DllExport)
                    :: mkusb_h ++ [Declaration d])
  = Some (Some (TDecl (Attr DllImport) d)).
Proof. by vm_compute. Qed.

(** ** Linkage of what follows the header *)





(** ** One declaration to a name *)

(** In a list whose names are pairwise distinct, looking a member up by
    its name finds that member. *)
Lemma find_by_name (l : list decl) (d : decl) :
  NoDup (d_name <$> l) →
  d ∈ l →
  List.find (λ x, bool_decide (d_name x = d_name d)) l = Some d.
Proof.
  induction l as [|x l IH]; intros Hnd Hd.
  - by apply elem_of_nil in Hd.
  - rewrite fmap_cons in Hnd. apply NoDup_cons in Hnd as [Hx Hnd].
    cbn [List.find]. apply elem_of_cons in Hd as [->|Hd].
    + by rewrite bool_decide_eq_true_2.
    + rewrite bool_decide_eq_false_2; [by apply IH|].
      intros Heq. apply Hx. rewrite Heq.
      apply list_elem_of_fmap. by exists d.
Qed.

(** X6.  No two of the 53 declarations share a name, so a name stands
    for one signature: a declared function looked up by its name is
    found exactly as it is declared. *)
Theorem one_declaration_per_name (d : decl) :
  d ∈ header_decls →
  find_decl (d_name d) = Some d ∧ NoDup names ∧ length names = 53.
Proof.
  intros Hd. split; [|split; [apply names_distinct | reflexivity]].
  apply find_by_name; [apply names_distinct | done].
Qed.

Lemma one_declaration_per_name_witness :
  let d := Fn (Some "DLLEXP") (Base TBool) (Some Cdecl) "mk_sflk_GetData"
              [P (Base TInt) "i"; P (Base TInt) "type";
               P (Ptr (Base TFloat)) "data"] in
  find_decl (d_name d) = Some d ∧ NoDup names ∧ length names = 53.
Proof.
  apply one_declaration_per_name.
  apply (bool_decide_unpack _). by vm_compute.
Defined.

(** * The rest of the declared surface *)

(** ** Outcome reporting of the per-device calls *)

(** X7.  Every call on an opened device, in every subsystem, returns
    [bool], the light-strength query alone excepted; so do the batch
    calls and [mk_Msr_GenerateCorrMatrix]. *)
Theorem per_device_calls_return_bool (d : decl) :
  d ∈ header_decls →
  device_index_first d = true ∨ d_name d ∈ (batch_calls ++ device_free)%list →
  d_name d ≠ "mk_GetLightStrnegth" →
  d_ret d = Base TBool.
Proof. revert d. by_table. Qed.

Lemma per_device_calls_return_bool_witness :
  d_ret (Fn (Some "DLLEXP") (Base TBool) (Some Cdecl) "mk_Peri_KeyGet"
            [P (Base TInt) "i"; P (Ptr (Base TUInt)) "key"])
  = Base TBool.
Proof.
  apply per_device_calls_return_bool.
  - apply (find_decl_elem "mk_Peri_KeyGet"). reflexivity.
  - left. reflexivity.
  - discriminate.
Defined.

(** ** What is passed by value *)

(** X8.  Whatever a declared function takes by value is an integer
    ([int], [unsigned int], [unsigned] or [unsigned short]) and whatever
    it returns is [void], [bool], [int] or [unsigned int]: no [float],
    [double] or [char] is passed or returned by value; they cross the
    interface behind pointers only. *)
Theorem values_are_integers (d : decl) :
  d ∈ header_decls →
  Forall (λ p, ∀ b, by_value (p_type p) = Some b → integer_type b = true)
         (d_params d)
  ∧ ∀ b, by_value (d_ret d) = Some b → b ∈ [TVoid; TBool; TInt; TUInt].
Proof.
  intros Hd.
  assert (Hb : Forall (λ p, from_option integer_type true (by_value (p_type p))
                             = true) (d_params d)
               ∧ from_option (λ b, bool_decide (b ∈ [TVoid; TBool; TInt; TUInt]))
                             true (by_value (d_ret d)) = true)
    by (revert d Hd; by_table).
  destruct Hb as [Hpar Hret]. split.
  - eapply Forall_impl; [exact Hpar|].
    intros p Hp b Hpb. cbv beta in Hp. by rewrite Hpb in Hp.
  - intros b Hrb. rewrite Hrb in Hret. by apply bool_decide_eq_true in Hret.
Qed.

Lemma values_are_integers_witness :
  let d := Fn (Some "DLLEXP") (Base TBool) (Some Cdecl) "mk_Peri_GetTemp"
              [P (Base TInt) "i"; P (Ptr (Base TFloat)) "data"] in
  Forall (λ p, ∀ b, by_value (p_type p) = Some b → integer_type b = true)
         (d_params d)
  ∧ ∀ b, by_value (d_ret d) = Some b → b ∈ [TVoid; TBool; TInt; TUInt].
Proof.
  apply values_are_integers.
  apply (find_decl_elem "mk_Peri_GetTemp"). reflexivity.
Defined.

(** ** Setters and getters *)

(** X9.  Where a setter has a getter of the same name, the two are
    declared with the same return type and the same parameters, so the
    types do not tell which way the data goes; this is so for
    [mk_Msr_SetCorrMatrixPara] and [mk_lv_SetOptSn] and for no other
    setter. *)
Theorem setter_getter_same_signature (d g : decl) :
  d ∈ header_decls →
  counterpart "Set" "Get" d = Some g →
  d_ret g = d_ret d
  ∧ d_params g = d_params d
  ∧ d_name d ∈ ["mk_Msr_SetCorrMatrixPara"; "mk_lv_SetOptSn"].
Proof.
  intros Hd Hg.
  assert (Hall : ∀ d, d ∈ header_decls →
    from_option
      (λ g, bool_decide
              (d_ret g = d_ret d ∧ d_params g = d_params d
               ∧ d_name d ∈ ["mk_Msr_SetCorrMatrixPara"; "mk_lv_SetOptSn"]))
      true (counterpart "Set" "Get" d) = true)
    by (apply holds_of_all; vm_compute; reflexivity).
  specialize (Hall d Hd). rewrite Hg in Hall.
  by apply bool_decide_eq_true in Hall.
Qed.

Lemma setter_getter_same_signature_witness :
  let d := Fn (Some "DLLEXP") (Base TBool) (Some Cdecl) "mk_lv_SetOptSn"
              [P (Base TInt) "i"; P (Ptr (Base TChar)) "sn"] in
  let g := Fn (Some "DLLEXP") (Base TBool) (Some Cdecl) "mk_lv_GetOptSn"
              [P (Base TInt) "i"; P (Ptr (Base TChar)) "sn"] in
  d_ret g = d_ret d
  ∧ d_params g = d_params d
  ∧ d_name d ∈ ["mk_Msr_SetCorrMatrixPara"; "mk_lv_SetOptSn"].
Proof.
  apply setter_getter_same_signature.
  - apply (find_decl_elem "mk_lv_SetOptSn"). reflexivity.
  - reflexivity.
Defined.

(** X10.  Six settings can be written and not read back: the header
    declares no getter for the maximum exposure time, the exposure mode,
    the correction-matrix channel, the LCD brightness or the parameters
    of either flicker subsystem. *)
Theorem write_only_settings (d : decl) :
  d ∈ header_decls →
  is_Some (replace_first "Set" "Get" (d_name d)) →
  counterpart "Set" "Get" d = None
  ↔ d_name d ∈ ["mk_Msr_SetMaxExpTime"; "mk_Msr_SetExpMode";
                "mk_Msr_SetCorrMatrixCH"; "mk_Peri_SetLCD";
                "mk_flk_SetPara"; "mk_sflk_SetPara"].
Proof. revert d. by_table. Qed.

Lemma write_only_settings_witness :
  let d := Fn (Some "DLLEXP") (Base TBool) (Some Cdecl) "mk_Peri_SetLCD"
              [P (Base TInt) "i"; P (Base TUShort) "percent"] in
  counterpart "Set" "Get" d = None
  ↔ d_name d ∈ ["mk_Msr_SetMaxExpTime"; "mk_Msr_SetExpMode";
                "mk_Msr_SetCorrMatrixCH"; "mk_Peri_SetLCD";
                "mk_flk_SetPara"; "mk_sflk_SetPara"].
Proof.
  apply write_only_settings.
  - apply (find_decl_elem "mk_Peri_SetLCD"). reflexivity.
  - by eexists.
Defined.

(** ** Dark references *)

(** X11.  Every capture call except [mk_sflk_CaptureRaw] comes with a
    dark-reference call of the same subsystem, named with [Dark] for
    [Capture], that returns [bool] and designates its device or devices
    the same way; there is no [mk_sflk_DarkRaw]. *)
Theorem capture_has_dark (d : decl) (n : string) :
  d ∈ header_decls →
  replace_first "Capture" "Dark" (d_name d) = Some n →
  d_name d ≠ "mk_sflk_CaptureRaw" →
  (∃ k, find_decl n = Some k
        ∧ d_ret k = Base TBool
        ∧ head (d_params k) = head (d_params d))
  ∧ find_decl "mk_sflk_DarkRaw" = None.
Proof.
  intros Hd Hn Hraw.
  assert (Hall : ∀ d, d ∈ header_decls →
    from_option
      (λ n, bool_decide (d_name d ≠ "mk_sflk_CaptureRaw") = true →
            from_option
              (λ k, bool_decide (d_ret k = Base TBool
                                 ∧ head (d_params k) = head (d_params d)))
              false (find_decl n) = true)
      True (replace_first "Capture" "Dark" (d_name d))).
  { refine (proj1 (Forall_forall _ _) _).
    repeat (constructor; [vm_compute; try done; by intros [=]|]).
    constructor. }
  specialize (Hall d Hd). rewrite Hn in Hall. cbn [from_option] in Hall.
  specialize (Hall (bool_decide_eq_true_2 _ Hraw)).
  split; [|reflexivity].
  destruct (find_decl n) as [k|]; [|discriminate Hall].
  exists k. apply bool_decide_eq_true in Hall. by destruct Hall.
Qed.

Lemma capture_has_dark_witness :
  let d := Fn (Some "DLLEXP") (Base TBool) (Some Cdecl) "mk_flk_Capture"
              [P (Base TInt) "i"; P (Base TUShort) "isAutoGain";
               P (Base TUShort) "gain"; P (Base TUShort) "enable_fir"] in
  (∃ k, find_decl "mk_flk_Dark" = Some k
        ∧ d_ret k = Base TBool
        ∧ head (d_params k) = head (d_params d))
  ∧ find_decl "mk_sflk_DarkRaw" = None.
Proof.
  apply capture_has_dark.
  - apply (find_decl_elem "mk_flk_Capture"). reflexivity.
  - reflexivity.
  - discriminate.
Defined.

(** ** The two flicker subsystems *)

(** X12.  [mk_sflk_...] mirrors [mk_flk_...] in exactly four calls:
    [Dark], [SetPara], [Capture] and [GetData] each have their
    [mk_sflk_] twin, with the same return type and the device index
    first, and no other declaration has one.  [SetPara] and [GetData]
    are declared alike in both; [Dark] and [Capture] are not: the
    [mk_sflk_] ones take an exposure time as [unsigned int], the
    [mk_flk_] ones take none. *)
Theorem flicker_subsystems (d : decl) :
  d ∈ header_decls →
  omap (λ d, (d_name d,.) <$> (d_name <$> counterpart "mk_flk_" "mk_sflk_" d))
       header_decls
  = [("mk_flk_Dark", "mk_sflk_Dark"); ("mk_flk_SetPara", "mk_sflk_SetPara");
     ("mk_flk_Capture", "mk_sflk_Capture"); ("mk_flk_GetData", "mk_sflk_GetData")]
  ∧ (is_Some (counterpart "mk_flk_" "mk_sflk_" d)
     ↔ d_name d ∈ ["mk_flk_Dark"; "mk_flk_SetPara"; "mk_flk_Capture";
                   "mk_flk_GetData"])
  ∧ ∀ s, counterpart "mk_flk_" "mk_sflk_" d = Some s →
      d_ret s = d_ret d
      ∧ head (d_params s) = head (d_params d)
      ∧ (d_name d ∈ ["mk_flk_SetPara"; "mk_flk_GetData"]
         → d_params s = d_params d)
      ∧ (d_name d ∈ ["mk_flk_Dark"; "mk_flk_Capture"]
         → exposure_type d = None ∧ exposure_type s = Some (Base TUInt)).
Proof.
  intros Hd. split; [by vm_compute|].
  assert (Hall : ∀ d, d ∈ header_decls →
    (is_Some (counterpart "mk_flk_" "mk_sflk_" d)
     ↔ d_name d ∈ ["mk_flk_Dark"; "mk_flk_SetPara"; "mk_flk_Capture";
                   "mk_flk_GetData"])
    ∧ from_option
        (λ s, bool_decide
           (d_ret s = d_ret d
            ∧ head (d_params s) = head (d_params d)
            ∧ (d_name d ∈ ["mk_flk_SetPara"; "mk_flk_GetData"]
               → d_params s = d_params d)
            ∧ (d_name d ∈ ["mk_flk_Dark"; "mk_flk_Capture"]
               → exposure_type d = None
                 ∧ exposure_type s = Some (Base TUInt))))
        true (counterpart "mk_flk_" "mk_sflk_" d) = true)
    by by_table.
  destruct (Hall d Hd) as [Hiff Hs]. split; [exact Hiff|].
  intros s Heq. rewrite Heq in Hs. by apply bool_decide_eq_true in Hs.
Qed.

Lemma flicker_subsystems_witness :
  let d := Fn (Some "DLLEXP") (Base TBool) (Some Cdecl) "mk_flk_Dark"
              [P (Base TInt) "i"] in
  omap (λ d, (d_name d,.) <$> (d_name <$> counterpart "mk_flk_" "mk_sflk_" d))
       header_decls
  = [("mk_flk_Dark", "mk_sflk_Dark"); ("mk_flk_SetPara", "mk_sflk_SetPara");
     ("mk_flk_Capture", "mk_sflk_Capture"); ("mk_flk_GetData", "mk_sflk_GetData")]
  ∧ (is_Some (counterpart "mk_flk_" "mk_sflk_" d)
     ↔ d_name d ∈ ["mk_flk_Dark"; "mk_flk_SetPara"; "mk_flk_Capture";
                   "mk_flk_GetData"])
  ∧ ∀ s, counterpart "mk_flk_" "mk_sflk_" d = Some s →
      d_ret s = d_ret d
      ∧ head (d_params s) = head (d_params d)
      ∧ (d_name d ∈ ["mk_flk_SetPara"; "mk_flk_GetData"]
         → d_params s = d_params d)
      ∧ (d_name d ∈ ["mk_flk_Dark"; "mk_flk_Capture"]
         → exposure_type d = None ∧ exposure_type s = Some (Base TUInt)).
Proof.
  apply flicker_subsystems.
  apply (find_decl_elem "mk_flk_Dark"). reflexivity.
Defined.

(** ** Names *)

(** X13.  Every declared name begins with [mk_]; within a declaration no
    two parameters share a name and none has type [void]. *)
Theorem names_well_formed (d : decl) :
  d ∈ header_decls →
  String.prefix "mk_" (d_name d) = true
  ∧ NoDup (p_name <$> d_params d)
  ∧ Forall (λ p, p_type p ≠ Base TVoid) (d_params d).
Proof. revert d. by_table. Qed.

Lemma names_well_formed_witness :
  let d := Fn (Some "DLLEXP") (Base TBool) (Some Cdecl)
              "mk_flk_GetFreqDomainWaveform"
              [P (Base TInt) "i"; P (Base TInt) "size";
               P (Ptr (Base TFloat)) "freq"; P (Ptr (Base TFloat)) "data"] in
  String.prefix "mk_" (d_name d) = true
  ∧ NoDup (p_name <$> d_params d)
  ∧ Forall (λ p, p_type p ≠ Base TVoid) (d_params d).
Proof.
  apply names_well_formed.
  apply (find_decl_elem "mk_flk_GetFreqDomainWaveform"). reflexivity.
Defined.
